(** * Reddit stock sentiment analyzer: a shallow embedding of
      [stock_sentiment.py] and the properties of its trend prediction.

    The Python module is one class, [StockSentimentAnalyzer], and a [main]
    driver.  Its collaborators (the Reddit client, the VADER scorer, the
    market-data client, the console) are external; they are modelled as a
    [World] of oracles.  Python floats are IEEE-754 binary64 numbers and are
    modelled by the kernel's primitive floats, so comparisons, NaN and
    rounding behave as they do in the interpreter. *)

From Stdlib Require Import ZArith List String Ascii Bool Lia Floats.
From Stdlib Require Import Permutation.
Import ListNotations.

Set Warnings "-inexact-float".
Set Implicit Arguments.

Local Open Scope list_scope.
Local Open Scope string_scope.

(** ** Python values: exceptions, results, strings *)

Module Py.

(** Exceptions that derive from [Exception].  [KeyError] is the one the
    program itself can provoke (a pandas column lookup); everything raised
    inside praw, yfinance or nltk is opaque and carries its class name and
    its message. *)
Inductive exn : Type :=
| KeyError (key : string)
| Raised (cls msg : string).

(** [str(e)]: a [KeyError] prints the [repr] of its key. *)
Definition exn_str (e : exn) : string :=
  match e with
  | KeyError k => "'" ++ k ++ "'"
  | Raised _ m => m
  end.

(** The classes of [BaseException] that do not derive from [Exception]:
    an [except Exception] clause lets them pass. *)
Inductive escape : Type :=
| KeyboardInterrupt
| SystemExit (code : Z)
| GeneratorExit.

(** How a computation ends: with a value, with an exception that derives
    from [Exception], or with one that does not. *)
Inductive result (A : Type) : Type :=
| Ok (a : A)
| Err (e : exn)
| Escape (x : escape).
Arguments Ok {A} a.
Arguments Err {A} e.
Arguments Escape {A} x.

(** The newline character, as [\n] in a Python literal. *)
Definition nl : string := String (ascii_of_nat 10) EmptyString.

(** [str.upper()] on a line of ASCII characters, which is what a ticker
    symbol is made of: the letters a-z become A-Z and every other ASCII
    character is left alone. *)
Definition upper_ascii (c : ascii) : ascii :=
  let n := nat_of_ascii c in
  if andb (Nat.leb 97 n) (Nat.leb n 122) then ascii_of_nat (n - 32) else c.

Fixpoint upper (s : string) : string :=
  match s with
  | EmptyString => EmptyString
  | String c r => String (upper_ascii c) (upper r)
  end.

End Py.
Export Py.

(** ** Floats: the mean of a float64 Series and the [.2f] format *)

Module F64.
Local Open Scope float_scope.

Definition count (n : nat) : float :=
  PrimFloat.of_uint63 (Uint63.of_Z (Z.of_nat n)).

(** numpy's pairwise summation of one block of at most 128 values.  Fewer
    than 8 values are added up left to right from [0.0].  Otherwise eight
    accumulators take the first eight values, every further full group of
    eight is added lane by lane, the lanes are combined as a balanced tree
    and the values that are left over are added one by one. *)
Fixpoint block_lanes (r0 r1 r2 r3 r4 r5 r6 r7 : float) (v : list float) : float :=
  match v with
  | a0 :: a1 :: a2 :: a3 :: a4 :: a5 :: a6 :: a7 :: rest =>
      block_lanes (r0 + a0) (r1 + a1) (r2 + a2) (r3 + a3)
                  (r4 + a4) (r5 + a5) (r6 + a6) (r7 + a7) rest
  | _ =>
      fold_left PrimFloat.add v
        (((r0 + r1) + (r2 + r3)) + ((r4 + r5) + (r6 + r7)))
  end.

Definition block_sum (v : list float) : float :=
  match v with
  | a0 :: a1 :: a2 :: a3 :: a4 :: a5 :: a6 :: a7 :: rest =>
      block_lanes a0 a1 a2 a3 a4 a5 a6 a7 rest
  | _ => fold_left PrimFloat.add v 0
  end.

(** Where an array of more than 128 values is cut: at half its length,
    rounded down to a multiple of eight. *)
Definition half (n : nat) : nat := n / 2 - (n / 2) mod 8.

(** Arrays of more than 128 values are cut in two and the sums of the two
    parts are added.  Each cut shortens both parts, so a fuel of the length
    of the array is never used up. *)
Fixpoint pairwise_sum (fuel : nat) (v : list float) : float :=
  match fuel with
  | O => block_sum v
  | S f =>
      if Nat.ltb 128 (List.length v)
      then pairwise_sum f (firstn (half (List.length v)) v)
           + pairwise_sum f (skipn (half (List.length v)) v)
      else block_sum v
  end.

(** [values.sum()]: the reduction starts from [0.0] and adds the pairwise
    sum of the array to it. *)
Definition sum (v : list float) : float :=
  0 + pairwise_sum (List.length v) v.

(** [Series.mean()] on a float64 column ([skipna=True]): NaN entries count
    as [0.0] in the sum and are left out of the count.  With nothing to
    count the result is [0/0], i.e. NaN. *)
Definition notna (v : list float) : list float :=
  filter (fun x => negb (PrimFloat.is_nan x)) v.

Definition fillna0 (v : list float) : list float :=
  map (fun x => if PrimFloat.is_nan x then 0 else x) v.

Definition nanmean (v : list float) : float :=
  sum (fillna0 v) / count (List.length (notna v)).

(** [format(x, ".2f")]: the exact binary value of [x] rounded to two
    decimals, ties to even. *)
Definition digit (z : Z) : string :=
  String (ascii_of_nat (48 + Z.to_nat z)) EmptyString.

Fixpoint digits (fuel : nat) (z : Z) : string :=
  match fuel with
  | O => digit (z mod 10)
  | S f => if (z <? 10)%Z then digit z
           else digits f (z / 10) ++ digit (z mod 10)
  end.

Definition dec (z : Z) : string := digits (Z.to_nat (Z.log2 z)) z.

(** Hundredths nearest to [m * 2^e]. *)
Definition hundredths (m : positive) (e : Z) : Z :=
  if (0 <=? e)%Z then 100 * Z.pos m * 2 ^ e
  else
    let d := (2 ^ (- e))%Z in
    let q := (100 * Z.pos m / d)%Z in
    let r := (100 * Z.pos m mod d)%Z in
    if (d <? 2 * r)%Z then (q + 1)%Z
    else if andb (d =? 2 * r)%Z (Z.odd q) then (q + 1)%Z
    else q.

Definition fixed2 (h : Z) : string :=
  dec (h / 100) ++ "." ++ digit (h mod 100 / 10) ++ digit (h mod 10).

Definition format_2f (x : float) : string :=
  match Prim2SF x with
  | S754_nan => "nan"
  | S754_infinity s => if s then "-inf" else "inf"
  | S754_zero s => if s then "-0.00" else "0.00"
  | S754_finite s m e =>
      (if s then "-" else EmptyString) ++ fixed2 (hundredths m e)
  end.

End F64.

(** ** The classification policy (lines 105-110 of [predict_trend]) *)

Definition bullish : string := "Bullish (Detected - Positive sentiment)".
Definition bearish : string := "Bearish (Detected - Negative sentiment)".
Definition neutral : string := "Neutral (Detected - Mixed sentiment)".

Definition trend_label (avg_sentiment : float) : string :=
  if (0.2 <? avg_sentiment)%float then bullish
  else if (avg_sentiment <? -0.2)%float then bearish
  else neutral.

(** ** A model of the pandas objects the program touches *)

Module Pandas.

(** A Series with its dtype: [object] strings, [int64], [float64] and
    [datetime64] (seconds since the epoch). *)
Inductive column : Type :=
| ColStr (v : list string)
| ColInt (v : list Z)
| ColFloat (v : list float)
| ColTime (v : list Z).

(** A frame is its row count and its named columns, in column order. *)
Record DataFrame : Type := { nrows : nat; columns : list (string * column) }.

(** The dict appended by [get_reddit_posts] for one submission. *)
Record PostRecord : Type :=
  { p_title : string; p_text : string; p_score : Z; p_created_utc : Z }.

(** [pd.DataFrame(posts)] for a list of such dicts: the columns are the
    keys of the dicts, so a frame built from no dict at all has no
    column. *)
Definition from_records (posts : list PostRecord) : DataFrame :=
  match posts with
  | [] => {| nrows := 0; columns := [] |}
  | _ :: _ =>
      {| nrows := List.length posts;
         columns := [ ("title", ColStr (map p_title posts));
                      ("text", ColStr (map p_text posts));
                      ("score", ColInt (map p_score posts));
                      ("created_utc", ColTime (map p_created_utc posts)) ] |}
  end.

Fixpoint lookup (k : string) (cols : list (string * column)) : option column :=
  match cols with
  | [] => None
  | (k', c) :: rest => if String.eqb k k' then Some c else lookup k rest
  end.

(** [df[k]] *)
Definition getitem (df : DataFrame) (k : string) : result column :=
  match lookup k (columns df) with
  | Some c => Ok c
  | None => Err (KeyError k)
  end.

Fixpoint assign (k : string) (c : column) (cols : list (string * column))
  : list (string * column) :=
  match cols with
  | [] => [(k, c)]
  | (k', c') :: rest =>
      if String.eqb k k' then (k, c) :: rest else (k', c') :: assign k c rest
  end.

(** [df[k] = c] for a Series [c] on the frame's own index. *)
Definition setitem (df : DataFrame) (k : string) (c : column) : DataFrame :=
  {| nrows := nrows df; columns := assign k c (columns df) |}.

(** [series.mean()]; only the float64 case is exercised by the program,
    a string column has no mean. *)
Definition mean (c : column) : result float :=
  match c with
  | ColFloat v => Ok (F64.nanmean v)
  | _ => Err (Raised "TypeError" "Could not convert to numeric")
  end.

(** One value of a row. *)
Inductive cell : Type :=
| VStr (s : string)
| VInt (z : Z)
| VFloat (f : float)
| VTime (t : Z).

Definition cell_at (c : column) (i : nat) : cell :=
  match c with
  | ColStr v => match nth_error v i with Some s => VStr s | None => VFloat nan end
  | ColInt v => match nth_error v i with Some z => VInt z | None => VFloat nan end
  | ColFloat v => match nth_error v i with Some f => VFloat f | None => VFloat nan end
  | ColTime v => match nth_error v i with Some t => VTime t | None => VFloat nan end
  end.

Definition row : Type := list (string * cell).

Definition row_at (df : DataFrame) (i : nat) : row :=
  map (fun kc => (fst kc, cell_at (snd kc) i)) (columns df).

(** [df.iterrows()], without the index labels. *)
Definition iterrows (df : DataFrame) : list row :=
  map (row_at df) (seq 0 (nrows df)).

Fixpoint row_lookup (k : string) (r : row) : option cell :=
  match r with
  | [] => None
  | (k', c) :: rest => if String.eqb k k' then Some c else row_lookup k rest
  end.

(** [row[k]] *)
Definition row_getitem (r : row) (k : string) : result cell :=
  match row_lookup k r with
  | Some c => Ok c
  | None => Err (KeyError k)
  end.

(** The text of a string cell; the lexicon scorer and the title line of
    the report are only ever handed string cells. *)
Definition as_text (c : cell) : result string :=
  match c with
  | VStr s => Ok s
  | _ => Err (Raised "TypeError" "expected a string")
  end.

End Pandas.

(** ** The outside world *)

(** Dates and times are counted in seconds since the Unix epoch.  A Python
    [datetime] covers the years 1 to 9999. *)
Definition seconds_per_day : Z := 86400.
Definition datetime_min : Z := -62135596800.
Definition datetime_max : Z := 253402300800.

(** The instants the collaborators report - the creation time of a
    submission, the reading of the clock - lie after the epoch and a day
    before the end of year 9999, where [datetime] has a value for them in
    every time zone. *)
Definition in_unix_range (t : Z) : bool :=
  ((0 <=? t) && (t <? datetime_max - seconds_per_day))%Z.

Record instant : Type :=
  { seconds : Z; seconds_ok : in_unix_range seconds = true }.

(** What the program reads from a Reddit submission. *)
Record Submission : Type :=
  { title : string; selftext : string; score : Z; created_utc : instant }.

(** One OHLCV row of the price history. *)
Record Candle : Type :=
  { c_date : Z; c_open : float; c_high : float; c_low : float;
    c_close : float; c_volume : Z }.

(** Calls that leave the program, in the order they are made. *)
Inductive call : Type :=
| Search (subreddits query : string) (limit : Z)
| History (symbol : string) (start_date end_date : Z)
| Polarity (text : string).

(** The collaborators.  A network call may answer differently each time, so
    its answer depends on the calls made so far; the lexicon scorer is a
    fixed function of the text. *)
Record World : Type :=
  { praw_Reddit : result unit;
    vader_load : result unit;
    stdin_line : result string;
    reddit_search : list call -> string -> string -> Z -> result (list Submission);
    ticker_history : list call -> string -> Z -> Z -> result (list Candle);
    clock : list call -> instant;
    polarity_compound : string -> float }.

(** ** The interpreter state and its monad *)

Record state : Type := { calls : list call; stdout : list string }.

Definition M (A : Type) : Type := state -> state * result A.

Definition ret {A} (a : A) : M A := fun st => (st, Ok a).

Definition raise {A} (e : exn) : M A := fun st => (st, Err e).

Definition bind {A B} (c : M A) (k : A -> M B) : M B :=
  fun st =>
    match c st with
    | (st', Ok a) => k a st'
    | (st', Err e) => (st', Err e)
    | (st', Escape x) => (st', Escape x)
    end.

Declare Scope py_scope.
Delimit Scope py_scope with py.
Notation "x <- c ;; k" := (bind c (fun x => k))
  (at level 100, c at next level, right associativity) : py_scope.
Notation "c ;;; k" := (bind c (fun _ => k))
  (at level 100, right associativity) : py_scope.
Local Open Scope py_scope.

Definition lift {A} (r : result A) : M A := fun st => (st, r).

Definition get_calls : M (list call) := fun st => (st, Ok (calls st)).

Definition record_call (c : call) : M unit :=
  fun st => ({| calls := calls st ++ [c]; stdout := stdout st |}, Ok tt).

(** [print(s)]: one entry of [stdout] per call. *)
Definition print (s : string) : M unit :=
  fun st => ({| calls := calls st; stdout := stdout st ++ [s] |}, Ok tt).

(** [try: body except Exception as e: handler(e)]: what does not derive
    from [Exception] passes through. *)
Definition try_except (body : M unit) (handler : exn -> M unit) : M unit :=
  fun st =>
    match body st with
    | (st', Ok tt) => (st', Ok tt)
    | (st', Err e) => handler e st'
    | (st', Escape x) => (st', Escape x)
    end.

Fixpoint mapM {A B} (f : A -> M B) (l : list A) : M (list B) :=
  match l with
  | [] => ret []
  | a :: rest => b <- f a ;; bs <- mapM f rest ;; ret (b :: bs)
  end.

Fixpoint for_each {A} (l : list A) (body : A -> M unit) : M unit :=
  match l with
  | [] => ret tt
  | a :: rest => body a ;;; for_each rest body
  end.

(** ** The datetime operations the program uses *)

(** [datetime.fromtimestamp(t)]: the local date and time of the instant,
    kept as the instant itself.  It raises when the local date leaves the
    years 1 to 9999, which can happen within a day of either end. *)
Definition fromtimestamp (t : Z) : result Z :=
  if ((datetime_min + seconds_per_day <=? t)
      && (t <? datetime_max - seconds_per_day))%Z
  then Ok t
  else Err (Raised "ValueError" "year is out of range").

(** [timedelta(days=days)] *)
Definition timedelta (days : Z) : result Z :=
  if (Z.abs days <=? 999999999)%Z then Ok (days * seconds_per_day)%Z
  else Err (Raised "OverflowError" "days must have magnitude <= 999999999").

(** [t - delta] on a [datetime] *)
Definition datetime_sub (t delta : Z) : result Z :=
  let r := (t - delta)%Z in
  if ((datetime_min <=? r) && (r <? datetime_max))%Z then Ok r
  else Err (Raised "OverflowError" "date value out of range").

(** ** class StockSentimentAnalyzer *)

Section Analyzer.

Variable w : World.

(** [__init__]: builds the Reddit client from the environment and loads
    the lexicon scorer. *)
Definition init : M unit :=
  lift (praw_Reddit w) ;;; lift (vader_load w).

Definition subreddits : string := "stocks+investing+wallstreetbets".

(** The dict appended for one hit (lines 49-54). *)
Definition post_record (post : Submission) : result Pandas.PostRecord :=
  match fromtimestamp (seconds (created_utc post)) with
  | Ok created =>
      Ok {| Pandas.p_title := title post;
            Pandas.p_text := selftext post;
            Pandas.p_score := score post;
            Pandas.p_created_utc := created |}
  | Err e => Err e
  | Escape x => Escape x
  end.

(** The loop over the hits (lines 45-54): the first hit whose dict cannot
    be built ends it. *)
Fixpoint collect_posts (hits : list Submission) : result (list Pandas.PostRecord) :=
  match hits with
  | [] => Ok []
  | post :: rest =>
      match post_record post with
      | Ok r =>
          match collect_posts rest with
          | Ok rs => Ok (r :: rs)
          | Err e => Err e
          | Escape x => Escape x
          end
      | Err e => Err e
      | Escape x => Escape x
      end
  end.

(** [get_reddit_posts(stock_symbol, limit)]: one search for
    ["<symbol> stock"], each hit appended as a dict, the list turned into
    a frame. *)
Definition get_reddit_posts (stock_symbol : string) (limit : Z)
  : M Pandas.DataFrame :=
  let query := stock_symbol ++ " stock" in
  seen <- get_calls ;;
  record_call (Search subreddits query limit) ;;;
  hits <- lift (reddit_search w seen subreddits query limit) ;;
  posts <- lift (collect_posts hits) ;;
  ret (Pandas.from_records posts).

(** [analyze_sentiment(text)]: the compound score of the lexicon model. *)
Definition analyze_sentiment (text : string) : M float :=
  record_call (Polarity text) ;;;
  ret (polarity_compound w text).

(** [get_stock_data(stock_symbol, days)]: the window is computed first,
    then the history is requested. *)
Definition get_stock_data (stock_symbol : string) (days : Z)
  : M (list Candle) :=
  seen <- get_calls ;;
  let end_date := seconds (clock w seen) in
  delta <- lift (timedelta days) ;;
  start_date <- lift (datetime_sub end_date delta) ;;
  record_call (History stock_symbol start_date end_date) ;;;
  lift (ticker_history w seen stock_symbol start_date end_date).

(** [series.apply(self.analyze_sentiment)] on a column of texts. *)
Definition apply_sentiment (c : Pandas.column) : M Pandas.column :=
  match c with
  | Pandas.ColStr v => s <- mapM analyze_sentiment v ;; ret (Pandas.ColFloat s)
  | _ => raise (Raised "TypeError" "expected a string")
  end.

(** Lines 101-103 of [predict_trend]: fetch, score the ['text'] column
    into a ['sentiment'] column, take its mean. *)
Definition mean_sentiment (stock_symbol : string) : M float :=
  posts_df <- get_reddit_posts stock_symbol 100 ;;
  text <- lift (Pandas.getitem posts_df "text") ;;
  sentiment <- apply_sentiment text ;;
  let posts_df := Pandas.setitem posts_df "sentiment" sentiment in
  column <- lift (Pandas.getitem posts_df "sentiment") ;;
  lift (Pandas.mean column).

(** [predict_trend(stock_symbol)] *)
Definition predict_trend (stock_symbol : string) : M string :=
  avg_sentiment <- mean_sentiment stock_symbol ;;
  stock_data <- get_stock_data stock_symbol 30 ;;
  ret (trend_label avg_sentiment).

(** ** The report driver *)

(** The body of the loop over [posts.iterrows()]. *)
Definition print_post (post : Pandas.row) : M unit :=
  t <- lift (Pandas.row_getitem post "title") ;;
  t <- lift (Pandas.as_text t) ;;
  print (nl ++ "Title: " ++ t) ;;;
  x <- lift (Pandas.row_getitem post "text") ;;
  x <- lift (Pandas.as_text x) ;;
  s <- analyze_sentiment x ;;
  print ("Sentiment: " ++ F64.format_2f s).

(** The body of the [try] statement of [main]. *)
Definition pipeline (stock_symbol : string) : M unit :=
  prediction <- predict_trend stock_symbol ;;
  print (nl ++ "Analysis for " ++ stock_symbol ++ ":") ;;;
  print prediction ;;;
  posts <- get_reddit_posts stock_symbol 5 ;;
  print (nl ++ "Recent Reddit posts about this stock:") ;;;
  for_each (Pandas.iterrows posts) print_post.

(** The [try] statement: an [Exception] is printed as one line. *)
Definition report (stock_symbol : string) : M unit :=
  try_except (pipeline stock_symbol)
             (fun e => print ("Error: " ++ exn_str e)).

(** [input(prompt)] *)
Definition input (prompt : string) : M string :=
  print prompt ;;; lift (stdin_line w).

Definition main : M unit :=
  init ;;;
  line <- input "Enter stock symbol (e.g., AAPL): " ;;
  let stock_symbol := upper line in
  report stock_symbol.

Definition start : state := {| calls := []; stdout := [] |}.

(** The exit status of the process: 0 when [main] returns, 1 when an
    exception escapes it with a traceback, the code of a [SystemExit], and
    130 (as a POSIX shell reports it) after a [KeyboardInterrupt]. *)
Definition exit_code : Z :=
  match snd (main start) with
  | Ok _ => 0
  | Err _ => 1
  | Escape KeyboardInterrupt => 130
  | Escape (SystemExit code) => code
  | Escape GeneratorExit => 1
  end.

End Analyzer.

(** ** Sample worlds *)

Module Sample.

Definition moment : instant :=
  {| seconds := 1700000000; seconds_ok := eq_refl |}.

Definition post (t b : string) : Submission :=
  {| title := t; selftext := b; score := 1; created_utc := moment |}.

(** Scores of the lexicon model on a few one-word texts. *)
Definition compound (text : string) : float :=
  if String.eqb text "good" then 0.4404%float
  else if String.eqb text "great" then 0.6249%float
  else if String.eqb text "bad" then (-0.5423)%float
  else 0%float.

(** A world whose search always answers with [hits]. *)
Definition world (hits : list Submission) (line : string) : World :=
  {| praw_Reddit := Ok tt;
     vader_load := Ok tt;
     stdin_line := Ok line;
     reddit_search := fun _ _ _ _ => Ok hits;
     ticker_history := fun _ _ _ _ => Ok [];
     clock := fun _ => moment;
     polarity_compound := compound |}.

(** The same, with the search service down. *)
Definition offline (line : string) : World :=
  {| praw_Reddit := Ok tt;
     vader_load := Ok tt;
     stdin_line := Ok line;
     reddit_search := fun _ _ _ _ => Err (Raised "ResponseException" "received 401 HTTP response");
     ticker_history := fun _ _ _ _ => Ok [];
     clock := fun _ => moment;
     polarity_compound := compound |}.

(** The same as [world], with the market-data service down. *)
Definition no_prices (hits : list Submission) (line : string) : World :=
  {| praw_Reddit := Ok tt;
     vader_load := Ok tt;
     stdin_line := Ok line;
     reddit_search := fun _ _ _ _ => Ok hits;
     ticker_history := fun _ _ _ _ => Err (Raised "ConnectionError" "no route to host");
     clock := fun _ => moment;
     polarity_compound := compound |}.

Definition three : list Submission :=
  [ post "Earnings" "good"; post "Rally" "great"; post "Lawsuit" "bad" ].

Definition two : list Submission :=
  [ post "Earnings" "good"; post "Rally" "great" ].

Definition one : list Submission := [ post "Lawsuit" "bad" ].

Definition line : string := "aapl".


End Sample.

(** ** Vocabulary for stating what a run does *)

(** The state after the calls [cs] were made. *)
Definition after (st : state) (cs : list call) : state :=
  {| calls := calls st ++ cs; stdout := stdout st |}.

(** The state after the lines [ls] were printed. *)
Definition printed (st : state) (ls : list string) : state :=
  {| calls := calls st; stdout := stdout st ++ ls |}.

(** The search [get_reddit_posts] sends out. *)
Definition search_call (stock_symbol : string) (limit : Z) : call :=
  Search subreddits (stock_symbol ++ " stock") limit.

(** The dict of one hit, with its creation time converted. *)
Definition post_row (post : Submission) : Pandas.PostRecord :=
  {| Pandas.p_title := title post;
     Pandas.p_text := selftext post;
     Pandas.p_score := score post;
     Pandas.p_created_utc := seconds (created_utc post) |}.

(** The frame of a list of hits. *)
Definition frame_of (hits : list Submission) : Pandas.DataFrame :=
  Pandas.from_records (map post_row hits).

(** The scores of the body texts of [hits], in order. *)
Definition body_scores (w : World) (hits : list Submission) : list float :=
  map (fun p => polarity_compound w (selftext p)) hits.

Definition body_calls (hits : list Submission) : list call :=
  map (fun p => Polarity (selftext p)) hits.

(** The price-history request [get_stock_data] sends out from state [st]. *)
Definition history_call (w : World) (st : state) (stock_symbol : string) (days : Z) : call :=
  History stock_symbol
    (seconds (clock w (calls st)) - days * seconds_per_day)
    (seconds (clock w (calls st))).

(** The answer the market-data service gives to that request. *)
Definition history_answer (w : World) (st : state) (stock_symbol : string) (days : Z)
  : result (list Candle) :=
  ticker_history w (calls st) stock_symbol
    (seconds (clock w (calls st)) - days * seconds_per_day)
    (seconds (clock w (calls st))).

(** The world [w] with another market-data service. *)
Definition with_history (w : World)
    (h : list call -> string -> Z -> Z -> result (list Candle)) : World :=
  {| praw_Reddit := praw_Reddit w;
     vader_load := vader_load w;
     stdin_line := stdin_line w;
     reddit_search := reddit_search w;
     ticker_history := h;
     clock := clock w;
     polarity_compound := polarity_compound w |}.

(** The row [iterrows] yields for one fetched post. *)
Definition row_of (p : Pandas.PostRecord) : Pandas.row :=
  [ ("title", Pandas.VStr (Pandas.p_title p));
    ("text", Pandas.VStr (Pandas.p_text p));
    ("score", Pandas.VInt (Pandas.p_score p));
    ("created_utc", Pandas.VTime (Pandas.p_created_utc p)) ].

(** The two lines the sample report prints for one fetched post. *)
Definition sample_lines (w : World) (p : Submission) : list string :=
  [ nl ++ "Title: " ++ title p;
    "Sentiment: " ++ F64.format_2f (polarity_compound w (selftext p)) ].

(** The prompt [main] writes before reading the symbol. *)
Definition prompt : string := "Enter stock symbol (e.g., AAPL): ".

(** The two lines [main] prints once the prediction is there. *)
Definition analysis_lines (stock_symbol label : string) : list string :=
  [ nl ++ "Analysis for " ++ stock_symbol ++ ":"; label ].

(** The line that opens the sample of posts. *)
Definition sample_header : string := nl ++ "Recent Reddit posts about this stock:".

(** The world [w] with another answer of [input()]. *)
Definition with_stdin (w : World) (r : result string) : World :=
  {| praw_Reddit := praw_Reddit w;
     vader_load := vader_load w;
     stdin_line := r;
     reddit_search := reddit_search w;
     ticker_history := ticker_history w;
     clock := clock w;
     polarity_compound := polarity_compound w |}.

(** The world [w] with another Reddit search service. *)
Definition with_search (w : World)
    (f : list call -> string -> string -> Z -> result (list Submission)) : World :=
  {| praw_Reddit := praw_Reddit w;
     vader_load := vader_load w;
     stdin_line := stdin_line w;
     reddit_search := f;
     ticker_history := ticker_history w;
     clock := clock w;
     polarity_compound := polarity_compound w |}.

(** Network requests among the calls of a run. *)
Definition is_search (c : call) : bool :=
  match c with Search _ _ _ => true | _ => false end.

Definition is_history (c : call) : bool :=
  match c with History _ _ _ => true | _ => false end.

Definition count_calls (p : call -> bool) (cs : list call) : nat :=
  List.length (filter p cs).

(** A world whose search service answers the first request with [hits] and
    fails from then on. *)
Definition flaky_world (hits : list Submission) (line : string) : World :=
  with_search (Sample.world hits line)
    (fun seen _ _ _ =>
       match seen with
       | [] => Ok hits
       | _ :: _ => Err (Raised "TooManyRequests" "received 429 HTTP response")
       end).

(** A world in which the user presses Ctrl-C while the search is under
    way. *)
Definition interrupted_world (line : string) : World :=
  with_search (Sample.world Sample.two line)
    (fun _ _ _ _ => Escape KeyboardInterrupt).

(** A world whose scorer cannot score anything. *)
Definition unscored_world (hits : list Submission) (line : string) : World :=
  {| praw_Reddit := Ok tt;
     vader_load := Ok tt;
     stdin_line := Ok line;
     reddit_search := fun _ _ _ _ => Ok hits;
     ticker_history := fun _ _ _ _ => Ok [];
     clock := fun _ => Sample.moment;
     polarity_compound := fun _ => nan |}.

(** A column of scores that are all [0.0]. *)
Definition all_zero (v : list float) : Prop := Forall (fun x => x = 0%float) v.

(** ** Facts about binary64 comparisons *)

Section FloatFacts.
Local Open Scope float_scope.

(** No float is both above [0.2] and below [-0.2]: the first needs a
    positive sign, the second a negative one. *)
Lemma above_and_below (m : float) :
  (0.2 <? m) = true -> (m <? -0.2) = true -> False.
Proof.
  rewrite !ltb_spec.
  set (a := Prim2SF 0.2). vm_compute in a. subst a.
  set (b := Prim2SF (-0.2)). vm_compute in b. subst b.
  destruct (Prim2SF m) as [[|] | [|] | | [|] mm e]; unfold SFltb;
    cbn [SFcompare]; intros; congruence.
Qed.

End FloatFacts.

(** ** The summation never runs out of fuel *)

Section Pairwise.

Lemma half_bounds (n : nat) : 128 < n -> 0 < F64.half n /\ F64.half n < n.
Proof.
  intros Hn. unfold F64.half.
  pose proof (Nat.div_mod_eq n 2) as H2.
  pose proof (Nat.mod_upper_bound n 2) as R2.
  pose proof (Nat.mod_upper_bound (n / 2) 8) as R8.
  lia.
Qed.

Lemma pairwise_sum_fuel (f1 f2 : nat) (v : list float) :
  List.length v <= f1 -> List.length v <= f2 ->
  F64.pairwise_sum f1 v = F64.pairwise_sum f2 v.
Proof.
  revert f2 v. induction f1 as [|f1 IH]; intros f2 v H1 H2.
  - destruct v; [|simpl in H1; lia]. now destruct f2.
  - destruct f2 as [|f2]; [destruct v; [reflexivity | simpl in H2; lia]|].
    cbn [F64.pairwise_sum].
    destruct (Nat.ltb_spec 128 (List.length v)) as [Hn|Hn]; [|reflexivity].
    destruct (half_bounds Hn) as [Hp Hl].
    f_equal; apply IH; rewrite ?length_firstn, ?length_skipn; lia.
Qed.

(** The sum of more than 128 values is the sum of the sums of its two
    parts, each computed the same way. *)
Lemma pairwise_sum_split (v : list float) :
  128 < List.length v ->
  F64.pairwise_sum (List.length v) v =
  (F64.pairwise_sum (List.length (firstn (F64.half (List.length v)) v))
                    (firstn (F64.half (List.length v)) v)
   + F64.pairwise_sum (List.length (skipn (F64.half (List.length v)) v))
                      (skipn (F64.half (List.length v)) v))%float.
Proof.
  intros Hn. destruct (half_bounds Hn) as [Hp Hl].
  destruct (List.length v) as [|f] eqn:E; [lia|].
  cbn [F64.pairwise_sum]. rewrite E.
  destruct (Nat.ltb_spec 128 (S f)) as [_|Hc]; [|lia].
  f_equal; apply pairwise_sum_fuel;
    rewrite ?length_firstn, ?length_skipn; lia.
Qed.

End Pairwise.

(** ** Running the analyzer: what each method does to the state *)

Section Runs.

Variable w : World.

Lemma after_after st cs ds : after (after st cs) ds = after st (cs ++ ds).
Proof. unfold after; simpl. now rewrite <- app_assoc. Qed.

Lemma after_nil st : after st [] = st.
Proof. destruct st; unfold after; simpl. now rewrite app_nil_r. Qed.

(** The creation time of a submission always converts. *)
Lemma fromtimestamp_instant (t : instant) : fromtimestamp (seconds t) = Ok (seconds t).
Proof.
  destruct t as [t Ht]. cbn [seconds]. unfold fromtimestamp.
  unfold in_unix_range in Ht. apply andb_true_iff in Ht. destruct Ht as [H0 H1].
  apply Z.leb_le in H0. apply Z.ltb_lt in H1.
  replace (datetime_min + seconds_per_day <=? t)%Z with true
    by (symmetry; apply Z.leb_le; unfold datetime_min, seconds_per_day; lia).
  replace (t <? datetime_max - seconds_per_day)%Z with true
    by (symmetry; now apply Z.ltb_lt).
  reflexivity.
Qed.

Lemma collect_posts_ok (hits : list Submission) :
  collect_posts hits = Ok (map post_row hits).
Proof.
  induction hits as [|p hits IH]; [reflexivity|].
  cbn [collect_posts map]. unfold post_record.
  now rewrite fromtimestamp_instant, IH.
Qed.

Lemma get_reddit_posts_run stock_symbol limit st :
  get_reddit_posts w stock_symbol limit st =
  (after st [search_call stock_symbol limit],
   match reddit_search w (calls st) subreddits (stock_symbol ++ " stock") limit with
   | Ok hits => Ok (frame_of hits)
   | Err e => Err e
   | Escape x => Escape x
   end).
Proof.
  unfold get_reddit_posts, bind, get_calls, record_call, lift, ret; simpl.
  destruct (reddit_search w (calls st) subreddits _ limit) as [hits|e|x];
    try reflexivity.
  now rewrite collect_posts_ok.
Qed.

Lemma score_texts_run (v : list string) st :
  mapM (analyze_sentiment w) v st =
  (after st (map Polarity v), Ok (map (polarity_compound w) v)).
Proof.
  revert st; induction v as [|t v IH]; intros st; simpl.
  - now rewrite after_nil.
  - unfold bind at 1. unfold analyze_sentiment at 1, bind, record_call, ret.
    fold (after st [Polarity t]). unfold bind. rewrite IH, after_after.
    reflexivity.
Qed.

(** The ways lines 101-103 can end. *)
Lemma mean_sentiment_run stock_symbol st :
  mean_sentiment w stock_symbol st =
  match reddit_search w (calls st) subreddits (stock_symbol ++ " stock") 100 with
  | Err e => (after st [search_call stock_symbol 100], Err e)
  | Escape x => (after st [search_call stock_symbol 100], Escape x)
  | Ok [] => (after st [search_call stock_symbol 100], Err (KeyError "text"))
  | Ok hits =>
      (after st (search_call stock_symbol 100 :: body_calls hits),
       Ok (F64.nanmean (body_scores w hits)))
  end.
Proof.
  unfold mean_sentiment. unfold bind at 1. rewrite get_reddit_posts_run.
  destruct (reddit_search w (calls st) subreddits _ 100) as [[|p hits]|e|x];
    try reflexivity.
  unfold bind at 1, lift at 1. unfold frame_of.
  cbn [Pandas.getitem Pandas.from_records map].
  cbn -[mapM after F64.nanmean].
  unfold bind at 1. unfold bind at 1.
  rewrite (score_texts_run (selftext p :: map Pandas.p_text (map post_row hits))).
  unfold ret, bind, lift. cbn -[after F64.nanmean]. rewrite after_after.
  unfold body_calls, body_scores. cbn [map app].
  rewrite !map_map. reflexivity.
Qed.

End Runs.

Section PredictRuns.

Variable w : World.

(** Thirty days before any reading of the clock is a date [datetime] has. *)
Lemma get_stock_data_run stock_symbol st :
  get_stock_data w stock_symbol 30 st =
  (after st [history_call w st stock_symbol 30],
   history_answer w st stock_symbol 30).
Proof.
  unfold get_stock_data, history_call, history_answer, bind, get_calls, lift,
    record_call, after.
  change (timedelta 30) with (Ok (30 * seconds_per_day)%Z : result Z).
  cbn iota. unfold datetime_sub.
  destruct (clock w (calls st)) as [t Ht]. cbn [seconds].
  unfold in_unix_range in Ht. apply andb_true_iff in Ht. destruct Ht as [H0 H1].
  apply Z.leb_le in H0. apply Z.ltb_lt in H1.
  unfold datetime_max, seconds_per_day in *.
  replace (datetime_min <=? t - 30 * 86400)%Z with true
    by (symmetry; apply Z.leb_le; unfold datetime_min; lia).
  replace (t - 30 * 86400 <? 253402300800)%Z with true
    by (symmetry; apply Z.ltb_lt; lia).
  reflexivity.
Qed.

(** [predict_trend] is the sentiment stage, then the price fetch, then
    the label of the mean. *)
Lemma predict_trend_run stock_symbol st :
  predict_trend w stock_symbol st =
  match mean_sentiment w stock_symbol st with
  | (st1, Err e) => (st1, Err e)
  | (st1, Escape x) => (st1, Escape x)
  | (st1, Ok m) =>
      (after st1 [history_call w st1 stock_symbol 30],
       match history_answer w st1 stock_symbol 30 with
       | Ok _ => Ok (trend_label m)
       | Err e => Err e
       | Escape x => Escape x
       end)
  end.
Proof.
  unfold predict_trend. unfold bind at 1.
  destruct (mean_sentiment w stock_symbol st) as [st1 [m|e|x]]; try reflexivity.
  unfold bind. rewrite get_stock_data_run.
  now destruct (history_answer w st1 stock_symbol 30).
Qed.

(** A returned label is the label of the mean that was computed. *)
Lemma predict_trend_returns stock_symbol st st' label :
  predict_trend w stock_symbol st = (st', Ok label) ->
  exists st1 m,
    mean_sentiment w stock_symbol st = (st1, Ok m) /\ label = trend_label m.
Proof.
  rewrite predict_trend_run.
  destruct (mean_sentiment w stock_symbol st) as [st1 [m|e|x]]; try discriminate.
  destruct (history_answer w st1 stock_symbol 30); try discriminate.
  intros H; injection H as _ <-. now exists st1, m.
Qed.

End PredictRuns.

Lemma mean_sentiment_with_history w h stock_symbol st :
  mean_sentiment (with_history w h) stock_symbol st = mean_sentiment w stock_symbol st.
Proof. now rewrite !mean_sentiment_run. Qed.

(** ** The classification policy *)

(** C1: the label is Bullish exactly when the mean is strictly above 0.2,
    Bearish exactly when it is strictly below -0.2 and Neutral exactly when
    neither holds; a mean of exactly 0.2 or exactly -0.2 is Neutral, while
    0.2000001 is already Bullish and -0.2000001 Bearish.  Whatever
    [predict_trend] returns is this label of the mean it computed. *)
Theorem trend_label_thresholds :
  (forall m : float,
     (trend_label m = bullish <-> (0.2 <? m)%float = true) /\
     (trend_label m = bearish <-> (m <? -0.2)%float = true) /\
     (trend_label m = neutral <->
        (0.2 <? m)%float = false /\ (m <? -0.2)%float = false)) /\
  trend_label 0.2 = neutral /\
  trend_label (-0.2) = neutral /\
  trend_label 0.2000001 = bullish /\
  trend_label (-0.2000001) = bearish /\
  (forall w stock_symbol st st' label,
     predict_trend w stock_symbol st = (st', Ok label) ->
     exists st1 m,
       mean_sentiment w stock_symbol st = (st1, Ok m) /\ label = trend_label m).
Proof.
  split; [|repeat split; try reflexivity; apply predict_trend_returns].
  intros m. pose proof (@above_and_below m) as Habs.
  unfold trend_label.
  destruct (0.2 <? m)%float eqn:Hup; destruct (m <? -0.2)%float eqn:Hdown;
    repeat split; intros; try discriminate; try reflexivity;
    try (exfalso; now apply Habs);
    try (destruct H; discriminate).
Qed.

Lemma trend_label_thresholds_witness :
  exists st1 m,
    mean_sentiment (Sample.world Sample.two Sample.line) "AAPL" start = (st1, Ok m) /\
    bullish = trend_label m.
Proof.
  destruct trend_label_thresholds as (_ & _ & _ & _ & _ & H).
  eapply H. vm_compute. reflexivity.
Defined.

(** C10: a call of [predict_trend] that returns gives the label of the
    mean it computed, which is one of three fixed strings, and the Neutral
    one whenever both strict comparisons are false.  Such a mean - NaN among
    them - does reach the last branch: once the sentiment stage has produced
    it and the price fetch has answered, the call returns the Neutral
    string. *)
Theorem predict_trend_three_strings :
  forall w stock_symbol st,
    (forall st' label,
       predict_trend w stock_symbol st = (st', Ok label) ->
       exists st1 m,
         mean_sentiment w stock_symbol st = (st1, Ok m) /\
         label = (if (0.2 <? m)%float then "Bullish (Detected - Positive sentiment)"
                  else if (m <? -0.2)%float then "Bearish (Detected - Negative sentiment)"
                  else "Neutral (Detected - Mixed sentiment)") /\
         (label = "Bullish (Detected - Positive sentiment)" \/
          label = "Bearish (Detected - Negative sentiment)" \/
          label = "Neutral (Detected - Mixed sentiment)")) /\
    (forall st1 m candles,
       mean_sentiment w stock_symbol st = (st1, Ok m) ->
       history_answer w st1 stock_symbol 30 = Ok candles ->
       (0.2 <? m)%float = false -> (m <? -0.2)%float = false ->
       predict_trend w stock_symbol st =
       (after st1 [history_call w st1 stock_symbol 30],
        Ok "Neutral (Detected - Mixed sentiment)")) /\
    (forall st1 candles,
       mean_sentiment w stock_symbol st = (st1, Ok nan) ->
       history_answer w st1 stock_symbol 30 = Ok candles ->
       predict_trend w stock_symbol st =
       (after st1 [history_call w st1 stock_symbol 30],
        Ok "Neutral (Detected - Mixed sentiment)")).
Proof.
  intros w s st. split; [|split].
  - intros st' label H.
    destruct (predict_trend_returns _ _ _ H) as (st1 & m & Hm & ->).
    exists st1, m. split; [exact Hm|]. split; [reflexivity|].
    unfold trend_label.
    destruct (0.2 <? m)%float; [now left|].
    destruct (m <? -0.2)%float; [right; now left | right; now right].
  - intros st1 m candles Hm Hh Hup Hdown.
    rewrite predict_trend_run, Hm, Hh. unfold trend_label.
    now rewrite Hup, Hdown.
  - intros st1 candles Hm Hh. now rewrite predict_trend_run, Hm, Hh.
Qed.

Lemma predict_trend_three_strings_witness :
  predict_trend (Sample.world Sample.three Sample.line) "AAPL" start =
    (after start [ search_call "AAPL" 100; Polarity "good"; Polarity "great";
                   Polarity "bad"; History "AAPL" 1697408000 1700000000 ],
     Ok "Neutral (Detected - Mixed sentiment)") /\
  snd (predict_trend (unscored_world Sample.two Sample.line) "AAPL" start) =
    Ok "Neutral (Detected - Mixed sentiment)".
Proof.
  split.
  - destruct (predict_trend_three_strings
                (Sample.world Sample.three Sample.line) "AAPL" start) as (_ & H & _).
    rewrite (H (after start [ search_call "AAPL" 100; Polarity "good";
                              Polarity "great"; Polarity "bad" ])
               0.17433333333333337%float []);
      [reflexivity | vm_compute; reflexivity | reflexivity
       | reflexivity | reflexivity].
  - destruct (predict_trend_three_strings
                (unscored_world Sample.two Sample.line) "AAPL" start) as (_ & _ & H).
    rewrite (H (after start [ search_call "AAPL" 100; Polarity "good";
                              Polarity "great" ]) []);
      [reflexivity | vm_compute; reflexivity | reflexivity].
Defined.

(** C7: the label is a function of the mean sentiment alone.  Two calls
    that return and computed the same mean return the same label, whatever
    the worlds, symbols and states; and replacing the market-data service
    by any other one changes neither the mean nor the label of a call that
    returns. *)
Theorem label_function_of_mean :
  (forall w1 w2 s1 s2 st1 st2 a1 a2 m st1' st2' l1 l2,
     mean_sentiment w1 s1 st1 = (a1, Ok m) ->
     mean_sentiment w2 s2 st2 = (a2, Ok m) ->
     predict_trend w1 s1 st1 = (st1', Ok l1) ->
     predict_trend w2 s2 st2 = (st2', Ok l2) ->
     l1 = l2 /\ l1 = trend_label m) /\
  (forall w h stock_symbol st st1' st2' l1 l2,
     predict_trend w stock_symbol st = (st1', Ok l1) ->
     predict_trend (with_history w h) stock_symbol st = (st2', Ok l2) ->
     l1 = l2).
Proof.
  split.
  - intros w1 w2 s1 s2 st1 st2 a1 a2 m st1' st2' l1 l2 M1 M2 P1 P2.
    destruct (predict_trend_returns _ _ _ P1) as (b1 & m1 & E1 & ->).
    destruct (predict_trend_returns _ _ _ P2) as (b2 & m2 & E2 & ->).
    rewrite M1 in E1. rewrite M2 in E2.
    injection E1 as _ <-. injection E2 as _ <-. now split.
  - intros w h s st st1' st2' l1 l2 P1 P2.
    destruct (predict_trend_returns _ _ _ P1) as (b1 & m1 & E1 & ->).
    destruct (predict_trend_returns _ _ _ P2) as (b2 & m2 & E2 & ->).
    rewrite mean_sentiment_with_history, E1 in E2.
    injection E2 as _ <-. reflexivity.
Qed.

Lemma label_function_of_mean_witness :
  snd (predict_trend (Sample.world Sample.two Sample.line) "AAPL" start) = Ok bullish /\
  snd (predict_trend (Sample.world Sample.two "msft") "MSFT" start) = Ok bullish /\
  (bullish = bullish /\ bullish = trend_label (F64.nanmean [0.4404; 0.6249]%float)).
Proof.
  split; [vm_compute; reflexivity|]. split; [vm_compute; reflexivity|].
  destruct label_function_of_mean as [H _].
  eapply (H (Sample.world Sample.two Sample.line)
            (Sample.world Sample.two "msft") "AAPL" "MSFT" start start);
    vm_compute; reflexivity.
Defined.

(** ** Failures inside [predict_trend] *)

(** C2: when the search answers with no post at all, [predict_trend] does
    not return: the column lookup ['text'] on the column-less frame raises
    [KeyError], before any mean is taken and before prices are fetched. *)
Theorem predict_trend_no_posts :
  forall w stock_symbol st,
    reddit_search w (calls st) subreddits (stock_symbol ++ " stock") 100 = Ok [] ->
    predict_trend w stock_symbol st =
    (after st [search_call stock_symbol 100], Err (KeyError "text")).
Proof.
  intros w s st H. rewrite predict_trend_run, mean_sentiment_run, H.
  reflexivity.
Qed.

Lemma predict_trend_no_posts_witness :
  predict_trend (Sample.world [] Sample.line) "ZZZZ" start =
  (after start [search_call "ZZZZ" 100], Err (KeyError "text")).
Proof.
  apply (@predict_trend_no_posts (Sample.world [] Sample.line) "ZZZZ" start).
  reflexivity.
Defined.

(** C9: [predict_trend] gives all or nothing.  If the search fails, the
    call ends with that very exception after that single search (nothing is
    retried and no price is fetched); if the sentiment stage succeeded and
    the price fetch fails, the call ends with the price fetch's exception
    and no label; and a label is returned only when both collaborators
    answered. *)
Theorem predict_trend_all_or_nothing :
  forall w stock_symbol st,
    (forall e,
       reddit_search w (calls st) subreddits (stock_symbol ++ " stock") 100 = Err e ->
       predict_trend w stock_symbol st =
       (after st [search_call stock_symbol 100], Err e)) /\
    (forall st1 m e,
       mean_sentiment w stock_symbol st = (st1, Ok m) ->
       history_answer w st1 stock_symbol 30 = Err e ->
       predict_trend w stock_symbol st =
       (after st1 [history_call w st1 stock_symbol 30], Err e)) /\
    (forall st' label,
       predict_trend w stock_symbol st = (st', Ok label) ->
       exists hits st1 candles,
         reddit_search w (calls st) subreddits (stock_symbol ++ " stock") 100 = Ok hits /\
         st1 = after st (search_call stock_symbol 100 :: body_calls hits) /\
         history_answer w st1 stock_symbol 30 = Ok candles).
Proof.
  intros w s st. split; [|split].
  - intros e H. now rewrite predict_trend_run, mean_sentiment_run, H.
  - intros st1 m e M H. now rewrite predict_trend_run, M, H.
  - intros st' label. rewrite predict_trend_run, mean_sentiment_run.
    destruct (reddit_search w (calls st) subreddits _ 100) as [[|p hits]|e|x];
      try discriminate.
    destruct (history_answer w _ s 30) as [candles|e|x] eqn:H; try discriminate.
    intros _. exists (p :: hits). eexists. exists candles. repeat split. exact H.
Qed.

Lemma predict_trend_all_or_nothing_witness :
  predict_trend (Sample.offline Sample.line) "AAPL" start =
    (after start [search_call "AAPL" 100],
     Err (Raised "ResponseException" "received 401 HTTP response")) /\
  snd (predict_trend (Sample.no_prices Sample.two Sample.line) "AAPL" start) =
    Err (Raised "ConnectionError" "no route to host").
Proof.
  split.
  - apply (proj1 (predict_trend_all_or_nothing (Sample.offline Sample.line) "AAPL" start)).
    reflexivity.
  - destruct (predict_trend_all_or_nothing
                (Sample.no_prices Sample.two Sample.line) "AAPL" start) as (_ & H & _).
    erewrite H; [reflexivity | vm_compute; reflexivity | reflexivity].
Defined.

(** ** The report boundary *)

Section Report.

Variable w : World.

Lemma report_run stock_symbol st :
  report w stock_symbol st =
  match pipeline w stock_symbol st with
  | (st1, Ok _) => (st1, Ok tt)
  | (st1, Err e) => (printed st1 ["Error: " ++ exn_str e], Ok tt)
  | (st1, Escape x) => (st1, Escape x)
  end.
Proof.
  unfold report, try_except.
  now destruct (pipeline w stock_symbol st) as [st1 [[]|e|x]].
Qed.

Lemma main_run line :
  praw_Reddit w = Ok tt -> vader_load w = Ok tt -> stdin_line w = Ok line ->
  main w start =
  report w (upper line) (printed start ["Enter stock symbol (e.g., AAPL): "]).
Proof.
  intros H1 H2 H3.
  unfold main, init, input, bind, lift, print. now rewrite H1, H2, H3.
Qed.

End Report.

(** C8 as stated fails: an exception that does not derive from
    [Exception] is not caught.  When the user interrupts the search, the
    [KeyboardInterrupt] leaves [main]: nothing but the prompt was printed
    and the exit status is not 0. *)
Lemma keyboard_interrupt_escapes :
  main (interrupted_world Sample.line) start =
  (after (printed start [prompt]) [search_call "AAPL" 100],
   Escape KeyboardInterrupt) /\
  exit_code (interrupted_world Sample.line) <> 0%Z.
Proof. split; [reflexivity | discriminate]. Qed.

(** C8, amended: once the analyzer is built and the symbol read, [main]
    runs the [try] statement on the upper-cased symbol.  Every exception
    deriving from [Exception] that its body raises - in the prediction, in
    the second fetch or in the sample report - is caught there, turned into
    the line ["Error: " ++ str(e)] and printed after what was printed
    before; [main] then returns and the exit status is 0, upstream failure
    included.  The same exit status follows a body that raises nothing.
    What does not derive from [Exception] leaves [main] uncaught. *)
Theorem report_catches_every_exception :
  forall w line,
    praw_Reddit w = Ok tt -> vader_load w = Ok tt -> stdin_line w = Ok line ->
    (forall st1 e,
       pipeline w (upper line) (printed start [prompt]) = (st1, Err e) ->
       main w start = (printed st1 ["Error: " ++ exn_str e], Ok tt) /\
       exit_code w = 0%Z) /\
    (forall st1,
       pipeline w (upper line) (printed start [prompt]) = (st1, Ok tt) ->
       main w start = (st1, Ok tt) /\ exit_code w = 0%Z) /\
    (forall st1 x,
       pipeline w (upper line) (printed start [prompt]) = (st1, Escape x) ->
       main w start = (st1, Escape x)).
Proof.
  intros w line H1 H2 H3.
  pose proof (main_run w H1 H2 H3) as Hm. rewrite report_run in Hm.
  fold prompt in Hm. unfold exit_code.
  split; [|split].
  - intros st1 e Hp. rewrite Hp in Hm. now rewrite Hm.
  - intros st1 Hp. rewrite Hp in Hm. now rewrite Hm.
  - intros st1 x Hp. now rewrite Hp in Hm.
Qed.

Lemma report_catches_every_exception_witness :
  main (Sample.offline Sample.line) start =
    (printed (after (printed start [prompt]) [search_call "AAPL" 100])
             ["Error: received 401 HTTP response"], Ok tt) /\
  exit_code (Sample.offline Sample.line) = 0%Z.
Proof.
  destruct (@report_catches_every_exception (Sample.offline Sample.line)
              Sample.line eq_refl eq_refl eq_refl) as (Hcatch & _ & _).
  apply (Hcatch (after (printed start [prompt]) [search_call "AAPL" 100])
                (Raised "ResponseException" "received 401 HTTP response")).
  reflexivity.
Defined.

(** ** The post fetch *)

(** C3 as stated fails: with an empty symbol the fetch searches for
    [" stock"] and returns the hits. *)
Lemma get_reddit_posts_empty_symbol :
  get_reddit_posts (Sample.world Sample.two Sample.line) EmptyString 100 start =
  (after start [Search subreddits " stock" 100], Ok (frame_of Sample.two)) /\
  (forall e, snd (get_reddit_posts (Sample.world Sample.two Sample.line)
                                   EmptyString 100 start) <> Err e).
Proof.
  split; [reflexivity | discriminate].
Qed.

(** C3, amended: an empty symbol or a limit of 0 or less is not rejected.
    The fetch checks neither argument: it sends the search for
    ["<symbol> stock"] with that limit all the same, returns the frame of
    the dicts it builds from the posts the search yields, and fails with
    the search's own exception when the search fails. *)
Theorem get_reddit_posts_no_validation :
  forall w stock_symbol limit st,
    stock_symbol = EmptyString \/ (limit <= 0)%Z ->
    fst (get_reddit_posts w stock_symbol limit st) =
      after st [Search subreddits (stock_symbol ++ " stock") limit] /\
    (forall hits posts,
       reddit_search w (calls st) subreddits (stock_symbol ++ " stock") limit = Ok hits ->
       collect_posts hits = Ok posts ->
       snd (get_reddit_posts w stock_symbol limit st) = Ok (Pandas.from_records posts)) /\
    (forall e,
       reddit_search w (calls st) subreddits (stock_symbol ++ " stock") limit = Err e ->
       snd (get_reddit_posts w stock_symbol limit st) = Err e).
Proof.
  intros w s limit st _. split; [now rewrite get_reddit_posts_run|]. split.
  - intros hits posts Hs Hc.
    unfold get_reddit_posts, bind, get_calls, record_call, lift, ret; cbn.
    now rewrite Hs, Hc.
  - intros e Hs. now rewrite get_reddit_posts_run, Hs.
Qed.

Lemma get_reddit_posts_no_validation_witness :
  snd (get_reddit_posts (Sample.world Sample.one Sample.line) EmptyString 100 start) =
    Ok (Pandas.from_records
          [ {| Pandas.p_title := "Lawsuit"; Pandas.p_text := "bad";
               Pandas.p_score := 1; Pandas.p_created_utc := 1700000000 |} ]) /\
  snd (get_reddit_posts (Sample.offline Sample.line) "AAPL" 0 start) =
    Err (Raised "ResponseException" "received 401 HTTP response").
Proof.
  split.
  - destruct (@get_reddit_posts_no_validation
                (Sample.world Sample.one Sample.line) EmptyString 100 start
                (or_introl eq_refl)) as (_ & H & _).
    apply (H Sample.one); reflexivity.
  - destruct (@get_reddit_posts_no_validation
                (Sample.offline Sample.line) "AAPL" 0 start
                (or_intror (Z.le_refl 0))) as (_ & _ & H).
    apply H. reflexivity.
Defined.

(** ** Which text is scored *)

Section Rows.

Lemma nth_error_middle {A B} (f : A -> B) (pre : list A) (a : A) (suf : list A) :
  nth_error (map f (pre ++ a :: suf)) (List.length pre) = Some (f a).
Proof.
  rewrite map_app, nth_error_app2; rewrite length_map; [|lia].
  now rewrite Nat.sub_diag.
Qed.

Lemma rows_from (pre suf : list Pandas.PostRecord) :
  (pre ++ suf)%list <> [] ->
  map (Pandas.row_at (Pandas.from_records (pre ++ suf)%list))
      (seq (List.length pre) (List.length suf)) =
  map row_of suf.
Proof.
  revert pre; induction suf as [|p suf IH]; intros pre Hne; [reflexivity|].
  cbn [List.length seq map]. f_equal.
  - unfold Pandas.row_at, Pandas.from_records.
    destruct (pre ++ p :: suf)%list as [|q l] eqn:E; [congruence|]. rewrite <- E.
    cbn [Pandas.columns map fst snd Pandas.cell_at].
    now rewrite !nth_error_middle.
  - specialize (IH (pre ++ [p])%list).
    rewrite <- app_assoc, length_app, Nat.add_comm in IH. cbn in IH.
    apply IH. now destruct pre.
Qed.

Lemma iterrows_from_records (posts : list Pandas.PostRecord) :
  Pandas.iterrows (Pandas.from_records posts) = map row_of posts.
Proof.
  destruct posts as [|p posts]; [reflexivity|].
  unfold Pandas.iterrows.
  replace (Pandas.nrows (Pandas.from_records (p :: posts)))
    with (List.length (p :: posts)) by reflexivity.
  now apply (rows_from [] (p :: posts)).
Qed.

Variable w : World.

Lemma print_post_run (p : Submission) st :
  print_post w (row_of (post_row p)) st =
  (printed (after st [Polarity (selftext p)]) (sample_lines w p), Ok tt).
Proof.
  unfold print_post, bind, lift, print, analyze_sentiment, record_call, ret,
    printed, after, sample_lines.
  cbn. now rewrite <- app_assoc.
Qed.

Lemma sample_report_run (hits : list Submission) st :
  for_each (map row_of (map post_row hits)) (print_post w) st =
  (printed (after st (body_calls hits)) (flat_map (sample_lines w) hits), Ok tt).
Proof.
  revert st; induction hits as [|p hits IH]; intros st.
  - unfold printed, after; destruct st; cbn. now rewrite !app_nil_r.
  - cbn [map for_each flat_map body_calls]. unfold bind.
    rewrite print_post_run, IH. unfold printed, after; cbn.
    now rewrite <- !app_assoc.
Qed.

End Rows.

(** C4 as stated fails in its last part: the sample report prints the
    title but scores the body.  For a post titled "great" with body "bad"
    the scorer is never called on the title, and the line under the title
    shows the score of the body. *)
Lemma sample_report_scores_body :
  let run := main (Sample.world [Sample.post "great" "bad"] Sample.line) start in
  ~ In (Polarity "great") (calls (fst run)) /\
  stdout (fst run) =
  [ "Enter stock symbol (e.g., AAPL): ";
    nl ++ "Analysis for AAPL:";
    "Bearish (Detected - Negative sentiment)";
    nl ++ "Recent Reddit posts about this stock:";
    nl ++ "Title: great";
    "Sentiment: -0.54" ].
Proof.
  split; [|vm_compute; reflexivity].
  vm_compute. intros H.
  repeat (destruct H as [H|H]; [discriminate H|]). exact H.
Qed.

(** C4, amended: only body text is ever scored.  The aggregate is the mean
    of the scores of the posts' body texts and the scorer is called on
    those texts only; the sample report prints each title and, under it,
    the score of the same post's body text, again calling the scorer on the
    body only.  Posts with the same bodies give the same scores whatever
    their titles. *)
Theorem only_body_text_scored :
  forall w stock_symbol st hits,
    (hits <> [] ->
     reddit_search w (calls st) subreddits (stock_symbol ++ " stock") 100 = Ok hits ->
     (exists posts, collect_posts hits = Ok posts) ->
     mean_sentiment w stock_symbol st =
     (after st (search_call stock_symbol 100 :: body_calls hits),
      Ok (F64.nanmean (body_scores w hits)))) /\
    for_each (Pandas.iterrows (frame_of hits)) (print_post w) st =
      (printed (after st (body_calls hits)) (flat_map (sample_lines w) hits), Ok tt) /\
    (forall hits',
       map selftext hits = map selftext hits' ->
       body_scores w hits = body_scores w hits' /\ body_calls hits = body_calls hits').
Proof.
  intros w s st hits. split; [|split].
  - intros Hne H _. rewrite mean_sentiment_run, H. destruct hits; congruence.
  - unfold frame_of. rewrite iterrows_from_records. apply sample_report_run.
  - intros hits' H. unfold body_scores, body_calls.
    rewrite <- !(map_map selftext (polarity_compound w)),
            <- !(map_map selftext Polarity), H.
    now split.
Qed.

Lemma only_body_text_scored_witness :
  mean_sentiment (Sample.world Sample.three Sample.line) "AAPL" start =
  (after start [search_call "AAPL" 100; Polarity "good"; Polarity "great"; Polarity "bad"],
   Ok (F64.nanmean [0.4404; 0.6249; -0.5423]%float)).
Proof.
  destruct (only_body_text_scored (Sample.world Sample.three Sample.line)
                                  "AAPL" start Sample.three) as (H & _ & _).
  apply H; [discriminate | reflexivity | now eexists].
Defined.

(** ** The mean in binary64 *)

Section FloatSum.
Local Open Scope float_scope.












End FloatSum.




(** ** Further properties of the analyzer *)

(** *** The order on binary64 values behind the thresholds *)

Section FloatOrder.
Local Open Scope float_scope.

Ltac cmp_cases :=
  repeat match goal with
         | |- context [Z.compare ?a ?b] => destruct (Z.compare_spec a b)
         | |- context [Pos.compare_cont Eq ?a ?b] =>
             change (Pos.compare_cont Eq a b) with (Pos.compare a b);
             destruct (Pos.compare_spec a b)
         end.

Ltac by_comparisons :=
  cmp_cases; cbn [CompOpp]; intros;
  try reflexivity; try discriminate; subst; exfalso; lia.

Lemma SFltb_leb_trans (x y z : spec_float) :
  SFltb x y = true -> SFleb y z = true -> SFltb x z = true.
Proof.
  destruct x as [[|] | [|] | | [|] mx ex]; destruct y as [[|] | [|] | | [|] my ey];
    destruct z as [[|] | [|] | | [|] mz ez];
    unfold SFltb, SFleb; cbn [SFcompare];
    try (intros; (reflexivity || discriminate)); by_comparisons.
Qed.

Lemma SFleb_ltb_trans (x y z : spec_float) :
  SFleb x y = true -> SFltb y z = true -> SFltb x z = true.
Proof.
  destruct x as [[|] | [|] | | [|] mx ex]; destruct y as [[|] | [|] | | [|] my ey];
    destruct z as [[|] | [|] | | [|] mz ez];
    unfold SFltb, SFleb; cbn [SFcompare];
    try (intros; (reflexivity || discriminate)); by_comparisons.
Qed.

Lemma SFltb_opp (x y : spec_float) : SFltb (SFopp x) (SFopp y) = SFltb y x.
Proof.
  destruct x as [[|] | [|] | | [|] mx ex]; destruct y as [[|] | [|] | | [|] my ey];
    unfold SFltb; cbn [SFopp SFcompare negb]; try reflexivity; by_comparisons.
Qed.

Lemma ltb_opp (a b : float) : (- a <? - b) = (b <? a).
Proof. rewrite !ltb_spec, !opp_spec. apply SFltb_opp. Qed.

Lemma ltb_leb_trans (a b c : float) :
  (a <? b) = true -> (b <=? c) = true -> (a <? c) = true.
Proof. rewrite !ltb_spec, leb_spec. apply SFltb_leb_trans. Qed.

Lemma leb_ltb_trans (a b c : float) :
  (a <=? b) = true -> (b <? c) = true -> (a <? c) = true.
Proof. rewrite !ltb_spec, leb_spec. apply SFleb_ltb_trans. Qed.

(** Zero divided by anything is a zero or NaN, and both are Neutral. *)
Lemma zero_div_neutral (c : float) : trend_label (0 / c) = neutral.
Proof.
  unfold trend_label. rewrite !ltb_spec, div_spec.
  set (a := Prim2SF 0.2). vm_compute in a. subst a.
  set (b := Prim2SF (-0.2)). vm_compute in b. subst b.
  set (z := Prim2SF 0). vm_compute in z. subst z.
  destruct (Prim2SF c) as [[|] | [|] | | [|] mc ec]; reflexivity.
Qed.

Lemma fold_zero (v : list float) (c : float) :
  c = 0 -> all_zero v -> fold_left PrimFloat.add v c = 0.
Proof.
  intros -> Hz. induction Hz as [|x v -> _ IH]; [reflexivity | exact IH].
Qed.

Ltac zeros :=
  repeat match goal with
         | H : all_zero (_ :: _) |- _ => inversion H; clear H; subst
         | H : Forall _ (_ :: _) |- _ => inversion H; clear H; subst
         end.

Lemma block_lanes_zero (n : nat) (v : list float) :
  List.length v <= n -> all_zero v -> F64.block_lanes 0 0 0 0 0 0 0 0 v = 0.
Proof.
  revert v. induction n as [|n IH]; intros v Hl Hz.
  - destruct v; [reflexivity | simpl in Hl; lia].
  - destruct v as [|a0 [|a1 [|a2 [|a3 [|a4 [|a5 [|a6 [|a7 rest]]]]]]]];
      try (zeros; reflexivity).
    zeros. cbn [F64.block_lanes]. apply IH; [cbn in Hl; lia | assumption].
Qed.

Lemma block_sum_zero (v : list float) : all_zero v -> F64.block_sum v = 0.
Proof.
  intros Hz.
  destruct v as [|a0 [|a1 [|a2 [|a3 [|a4 [|a5 [|a6 [|a7 rest]]]]]]]];
    try (zeros; reflexivity).
  zeros. cbn [F64.block_sum]. now apply (block_lanes_zero (n := List.length rest)).
Qed.

Lemma pairwise_sum_zero (fuel : nat) (v : list float) :
  all_zero v -> F64.pairwise_sum fuel v = 0.
Proof.
  revert v. induction fuel as [|f IH]; intros v Hz; cbn [F64.pairwise_sum].
  - now apply block_sum_zero.
  - destruct (Nat.ltb 128 (List.length v)); [|now apply block_sum_zero].
    unfold all_zero in Hz.
    rewrite <- (firstn_skipn (F64.half (List.length v)) v) in Hz.
    apply Forall_app in Hz. destruct Hz as [H1 H2].
    now rewrite (IH _ H1), (IH _ H2).
Qed.

(** A column of zeros sums to zero, however the additions are grouped. *)
Lemma sum_zeros (v : list float) : all_zero v -> F64.sum v = 0.
Proof. intros Hz. unfold F64.sum. now rewrite pairwise_sum_zero. Qed.

Lemma fillna0_zeros (v : list float) : all_zero v -> all_zero (F64.fillna0 v).
Proof.
  intros Hz. induction Hz as [|x v -> _ IH]; [constructor|].
  constructor; [reflexivity | exact IH].
Qed.

End FloatOrder.

(** X1: the policy is monotone.  When one mean is at most another (as
    binary64 values, so neither is NaN), a Bullish label for the smaller
    forces Bullish for the larger and a Bearish label for the larger
    forces Bearish for the smaller. *)
Theorem trend_label_monotone :
  forall m1 m2 : float,
    (m1 <=? m2)%float = true ->
    (trend_label m1 = bullish -> trend_label m2 = bullish) /\
    (trend_label m2 = bearish -> trend_label m1 = bearish).
Proof.
  intros m1 m2 Hle. unfold trend_label. split.
  - destruct (0.2 <? m1)%float eqn:H1.
    + intros _. now rewrite (ltb_leb_trans H1 Hle).
    + destruct (m1 <? -0.2)%float; discriminate.
  - destruct (0.2 <? m2)%float eqn:H2; [discriminate|].
    destruct (m2 <? -0.2)%float eqn:H3; [|discriminate].
    intros _. pose proof (leb_ltb_trans Hle H3) as H4.
    destruct (0.2 <? m1)%float eqn:H1.
    + exfalso. exact (above_and_below H1 H4).
    + now rewrite H4.
Qed.

Lemma trend_label_monotone_witness :
  (0.4404 <=? 0.6249)%float = true /\ trend_label 0.6249 = bullish.
Proof.
  split; [reflexivity|].
  apply (proj1 (@trend_label_monotone 0.4404%float 0.6249%float eq_refl)). reflexivity.
Defined.

(** X2: the policy is symmetric.  Negating the mean swaps Bullish and
    Bearish and keeps Neutral. *)
Theorem trend_label_opp :
  forall m : float,
    (trend_label (- m) = bullish <-> trend_label m = bearish) /\
    (trend_label (- m) = bearish <-> trend_label m = bullish) /\
    (trend_label (- m) = neutral <-> trend_label m = neutral).
Proof.
  intros m. pose proof (@above_and_below m) as Habs.
  assert (E1 : (0.2 <? - m)%float = (m <? -0.2)%float)
    by (apply (ltb_opp (-0.2) m)).
  assert (E2 : (- m <? -0.2)%float = (0.2 <? m)%float)
    by (apply (ltb_opp m 0.2)).
  unfold trend_label. rewrite E1, E2.
  destruct (0.2 <? m)%float eqn:Hup; destruct (m <? -0.2)%float eqn:Hdown;
    repeat split; intros; try discriminate; try reflexivity;
    exfalso; now apply Habs.
Qed.

Lemma trend_label_opp_witness :
  trend_label (- 0.6249) = bearish.
Proof.
  apply (proj2 (proj1 (proj2 (trend_label_opp 0.6249%float)))). reflexivity.
Defined.

(** *** What a call of [predict_trend] does, step by step *)

Section Silent.

Variable w : World.

Lemma mean_sentiment_stdout stock_symbol st :
  stdout (fst (mean_sentiment w stock_symbol st)) = stdout st.
Proof.
  rewrite mean_sentiment_run.
  now destruct (reddit_search w (calls st) subreddits _ 100) as [[|p hits]|e|x].
Qed.

Lemma predict_trend_stdout stock_symbol st :
  stdout (fst (predict_trend w stock_symbol st)) = stdout st.
Proof.
  rewrite predict_trend_run. pose proof (mean_sentiment_stdout stock_symbol st) as H.
  destruct (mean_sentiment w stock_symbol st) as [st1 [m|e|x]]; exact H.
Qed.

Lemma get_stock_data_stdout stock_symbol days st :
  stdout (fst (get_stock_data w stock_symbol days st)) = stdout st.
Proof.
  unfold get_stock_data, bind, get_calls, lift, record_call.
  destruct (timedelta days) as [delta|e|x]; try reflexivity.
  now destruct (datetime_sub (seconds (clock w (calls st))) delta).
Qed.

End Silent.

(** X3: a successful prediction makes its calls in a fixed order: one search
    with limit 100, one scoring call per post on its body text in the order
    of the hits, then one price request for the same symbol over the 30 days
    (2592000 seconds) that end at the clock reading taken after the scoring;
    the label is that of the mean of the body scores. *)
Theorem predict_trend_calls_in_order :
  forall w stock_symbol st hits candles,
    hits <> [] ->
    reddit_search w (calls st) subreddits (stock_symbol ++ " stock") 100 = Ok hits ->
    (exists posts, collect_posts hits = Ok posts) ->
    let scored := (calls st ++ search_call stock_symbol 100 :: body_calls hits)%list in
    let now := seconds (clock w scored) in
    ticker_history w scored stock_symbol (now - 2592000) now = Ok candles ->
    predict_trend w stock_symbol st =
    (after st (search_call stock_symbol 100 :: body_calls hits
               ++ [History stock_symbol (now - 2592000) now]),
     Ok (trend_label (F64.nanmean (body_scores w hits)))).
Proof.
  intros w s st hits candles Hne Hs _ scored now Hh.
  rewrite predict_trend_run, mean_sentiment_run, Hs.
  destruct hits as [|p hits]; [congruence|].
  unfold history_answer, history_call.
  change (calls (after st (search_call s 100 :: body_calls (p :: hits)))) with scored.
  change (seconds (clock w scored)) with now.
  change (30 * seconds_per_day)%Z with 2592000%Z.
  rewrite Hh, after_after. reflexivity.
Qed.

Lemma predict_trend_calls_in_order_witness :
  predict_trend (Sample.world Sample.two Sample.line) "AAPL" start =
  (after start [ search_call "AAPL" 100; Polarity "good"; Polarity "great";
                 History "AAPL" 1697408000 1700000000 ],
   Ok bullish).
Proof.
  apply (@predict_trend_calls_in_order (Sample.world Sample.two Sample.line)
           "AAPL" start Sample.two []);
    [discriminate | reflexivity | now eexists | reflexivity].
Defined.

(** X4: none of the analyzer's methods writes to the console, whatever
    their outcome: all printing is done by [main]. *)
Theorem analyzer_methods_print_nothing :
  forall w stock_symbol limit days text st,
    stdout (fst (get_reddit_posts w stock_symbol limit st)) = stdout st /\
    stdout (fst (analyze_sentiment w text st)) = stdout st /\
    stdout (fst (get_stock_data w stock_symbol days st)) = stdout st /\
    stdout (fst (predict_trend w stock_symbol st)) = stdout st.
Proof.
  intros w s limit days text st. repeat split.
  - now rewrite get_reddit_posts_run.
  - apply get_stock_data_stdout.
  - apply predict_trend_stdout.
Qed.

(** X5: posts whose bodies all score exactly 0.0 - link posts with an empty
    body, say - give Neutral, however many they are. *)
Theorem all_zero_scores_neutral :
  forall w stock_symbol st hits candles,
    hits <> [] ->
    reddit_search w (calls st) subreddits (stock_symbol ++ " stock") 100 = Ok hits ->
    Forall (fun p => polarity_compound w (selftext p) = 0%float) hits ->
    history_answer w (after st (search_call stock_symbol 100 :: body_calls hits))
                   stock_symbol 30 = Ok candles ->
    snd (predict_trend w stock_symbol st) = Ok neutral.
Proof.
  intros w s st hits candles Hne Hs Hz Hh.
  rewrite predict_trend_run, mean_sentiment_run, Hs.
  destruct hits as [|p hits]; [congruence|]. rewrite Hh. cbn [snd]. f_equal.
  assert (E : all_zero (body_scores w (p :: hits))).
  { clear Hne Hs Hh. unfold all_zero, body_scores.
    induction Hz as [|q l Hq _ IH]; constructor; assumption. }
  unfold F64.nanmean. rewrite (sum_zeros (fillna0_zeros E)).
  apply zero_div_neutral.
Qed.

Lemma all_zero_scores_neutral_witness :
  snd (predict_trend (Sample.world [Sample.post "Chart" EmptyString;
                                    Sample.post "News" "link"] Sample.line)
                     "AAPL" start) = Ok neutral.
Proof.
  apply (@all_zero_scores_neutral _ "AAPL" start
           [Sample.post "Chart" EmptyString; Sample.post "News" "link"] []).
  - discriminate.
  - reflexivity.
  - repeat constructor.
  - reflexivity.
Defined.

(** X6: the prediction reads the posts' body texts and nothing else: two
    search services whose hits carry the same bodies in the same order -
    whatever the titles, the upvote scores and the creation times, as long
    as these convert - lead to the same calls, the same outcome and the same
    label. *)
Theorem predict_trend_reads_bodies_only :
  forall w f1 f2 stock_symbol st hits1 hits2,
    f1 (calls st) subreddits (stock_symbol ++ " stock") 100%Z = Ok hits1 ->
    f2 (calls st) subreddits (stock_symbol ++ " stock") 100%Z = Ok hits2 ->
    (exists posts, collect_posts hits1 = Ok posts) ->
    (exists posts, collect_posts hits2 = Ok posts) ->
    map selftext hits1 = map selftext hits2 ->
    predict_trend (with_search w f1) stock_symbol st =
    predict_trend (with_search w f2) stock_symbol st.
Proof.
  intros w f1 f2 s st hits1 hits2 H1 H2 _ _ Hb.
  rewrite !predict_trend_run, !mean_sentiment_run.
  cbn [reddit_search with_search]. rewrite H1, H2.
  assert (Ec : body_calls hits1 = body_calls hits2).
  { unfold body_calls. now rewrite <- !(map_map selftext Polarity), Hb. }
  assert (Es : forall v, body_scores (with_search w v) hits1 =
                         body_scores (with_search w v) hits2).
  { intros v. unfold body_scores. cbn [polarity_compound with_search].
    now rewrite <- !(map_map selftext (polarity_compound w)), Hb. }
  destruct hits1 as [|p1 l1], hits2 as [|p2 l2]; try discriminate Hb;
    [reflexivity|].
  rewrite Ec. unfold body_scores in *. cbn [polarity_compound with_search] in *.
  rewrite (Es f1). reflexivity.
Qed.

Lemma predict_trend_reads_bodies_only_witness :
  predict_trend (with_search (Sample.world [] Sample.line)
                   (fun _ _ _ _ => Ok [Sample.post "Earnings" "good"])) "AAPL" start =
  predict_trend (with_search (Sample.world [] Sample.line)
                   (fun _ _ _ _ =>
                      Ok [ {| title := "Other"; selftext := "good"; score := 9000;
                              created_utc := {| seconds := 1119484800;
                                                seconds_ok := eq_refl |} |} ]))
                "AAPL" start.
Proof.
  apply (@predict_trend_reads_bodies_only (Sample.world [] Sample.line) _ _ "AAPL" start
           [Sample.post "Earnings" "good"]
           [ {| title := "Other"; selftext := "good"; score := 9000;
                created_utc := {| seconds := 1119484800; seconds_ok := eq_refl |} |} ]);
    try reflexivity; now eexists.
Defined.

(** *** What the user sees *)

Section Pipeline.

Variable w : World.

(** The ways the body of the [try] statement can end. *)
Lemma pipeline_run stock_symbol st :
  pipeline w stock_symbol st =
  match predict_trend w stock_symbol st with
  | (st1, Err e) => (st1, Err e)
  | (st1, Escape x) => (st1, Escape x)
  | (st1, Ok label) =>
      match reddit_search w (calls st1) subreddits (stock_symbol ++ " stock") 5 with
      | Err e =>
          (after (printed st1 (analysis_lines stock_symbol label))
                 [search_call stock_symbol 5], Err e)
      | Escape x =>
          (after (printed st1 (analysis_lines stock_symbol label))
                 [search_call stock_symbol 5], Escape x)
      | Ok hits =>
          ({| calls := calls st1 ++ search_call stock_symbol 5 :: body_calls hits;
              stdout := stdout st1 ++ analysis_lines stock_symbol label
                        ++ sample_header :: flat_map (sample_lines w) hits |},
           Ok tt)
      end
  end.
Proof.
  unfold pipeline. unfold bind at 1.
  destruct (predict_trend w stock_symbol st) as [st1 [label|e|x]]; try reflexivity.
  unfold bind at 1, print at 1. unfold bind at 1, print at 1.
  unfold bind at 1. rewrite get_reddit_posts_run. cbn [calls].
  destruct (reddit_search w (calls st1) subreddits _ 5) as [hits|e|x].
  - unfold bind at 1, print at 1. unfold frame_of.
    rewrite iterrows_from_records, sample_report_run.
    unfold printed, after, analysis_lines; cbn [calls stdout]. f_equal. f_equal.
    + now rewrite <- app_assoc.
    + now rewrite <- !app_assoc.
  - unfold printed, after, analysis_lines; cbn [calls stdout].
    now rewrite <- app_assoc.
  - unfold printed, after, analysis_lines; cbn [calls stdout].
    now rewrite <- app_assoc.
Qed.

Lemma main_started line :
  praw_Reddit w = Ok tt -> vader_load w = Ok tt -> stdin_line w = Ok line ->
  main w start =
  match pipeline w (upper line) (printed start [prompt]) with
  | (st1, Ok _) => (st1, Ok tt)
  | (st1, Err e) => (printed st1 ["Error: " ++ exn_str e], Ok tt)
  | (st1, Escape x) => (st1, Escape x)
  end.
Proof.
  intros H1 H2 H3. rewrite (main_run w H1 H2 H3). apply report_run.
Qed.

End Pipeline.



(** X8: what happens before the [try] statement is not caught.  An
    exception from building the Reddit client or from loading the scorer
    leaves [main] before anything is printed or requested; an exception
    from [input()] leaves it right after the prompt.  No "Error:" line is
    printed in either case. *)
Theorem main_startup_failure_escapes :
  forall w e,
    (praw_Reddit w = Err e -> main w start = (start, Err e)) /\
    (praw_Reddit w = Ok tt -> vader_load w = Err e -> main w start = (start, Err e)) /\
    (praw_Reddit w = Ok tt -> vader_load w = Ok tt -> stdin_line w = Err e ->
     main w start = (printed start [prompt], Err e)).
Proof.
  intros w e. unfold main, init, input, bind, lift, print. repeat split.
  - now intros ->.
  - now intros -> ->.
  - now intros -> -> ->.
Qed.

Lemma main_startup_failure_escapes_witness :
  main (with_stdin (Sample.world Sample.two Sample.line)
                   (Err (Raised "EOFError" "EOF when reading a line"))) start =
  (printed start [prompt], Err (Raised "EOFError" "EOF when reading a line")).
Proof.
  apply (main_startup_failure_escapes
           (with_stdin (Sample.world Sample.two Sample.line)
                       (Err (Raised "EOFError" "EOF when reading a line"))));
    reflexivity.
Defined.

(** X9: for a symbol the search finds no post about, the whole output of
    the program is the prompt and the line [Error: 'text']; one search was
    made, no text was scored and no price was requested. *)
Theorem main_no_posts :
  forall w line,
    praw_Reddit w = Ok tt -> vader_load w = Ok tt -> stdin_line w = Ok line ->
    reddit_search w [] subreddits (upper line ++ " stock") 100 = Ok [] ->
    main w start =
    ({| calls := [search_call (upper line) 100];
        stdout := [prompt; "Error: 'text'"] |}, Ok tt).
Proof.
  intros w line H1 H2 H3 Hs.
  rewrite (main_started w H1 H2 H3), pipeline_run, predict_trend_run,
    mean_sentiment_run.
  cbn [calls printed start]. rewrite Hs. reflexivity.
Qed.

Lemma main_no_posts_witness :
  main (Sample.world [] "zzzz") start =
  ({| calls := [search_call "ZZZZ" 100]; stdout := [prompt; "Error: 'text'"] |}, Ok tt).
Proof.
  apply (@main_no_posts (Sample.world [] "zzzz") "zzzz"); reflexivity.
Defined.

(** X10: when the prediction fails with an exception that derives from
    [Exception], whichever it is, the user sees the prompt and one error
    line and nothing else: no analysis header, no label, no sample; and the
    program does not fetch the sample. *)
Theorem main_prediction_failure :
  forall w line st1 e,
    praw_Reddit w = Ok tt -> vader_load w = Ok tt -> stdin_line w = Ok line ->
    predict_trend w (upper line) (printed start [prompt]) = (st1, Err e) ->
    main w start = (printed st1 ["Error: " ++ exn_str e], Ok tt) /\
    stdout (fst (main w start)) = [prompt; "Error: " ++ exn_str e].
Proof.
  intros w line st1 e H1 H2 H3 Hp.
  assert (E : main w start = (printed st1 ["Error: " ++ exn_str e], Ok tt)).
  { now rewrite (main_started w H1 H2 H3), pipeline_run, Hp. }
  split; [exact E|]. rewrite E. cbn [fst stdout printed].
  pose proof (predict_trend_stdout w (upper line) (printed start [prompt])) as Hs.
  rewrite Hp in Hs. cbn [fst] in Hs. rewrite Hs. reflexivity.
Qed.

Lemma main_prediction_failure_witness :
  stdout (fst (main (Sample.no_prices Sample.two Sample.line) start)) =
  [prompt; "Error: no route to host"].
Proof.
  refine (proj2 (@main_prediction_failure (Sample.no_prices Sample.two Sample.line)
                   Sample.line _ (Raised "ConnectionError" "no route to host")
                   eq_refl eq_refl eq_refl _)).
  vm_compute. reflexivity.
Defined.

(** X11: the label is printed before the sample is fetched.  When the
    prediction succeeded and the second search fails, the output is the
    prompt, the analysis header, the label and then the error line. *)
Theorem main_sample_fetch_failure :
  forall w line st1 label e,
    praw_Reddit w = Ok tt -> vader_load w = Ok tt -> stdin_line w = Ok line ->
    predict_trend w (upper line) (printed start [prompt]) = (st1, Ok label) ->
    reddit_search w (calls st1) subreddits (upper line ++ " stock") 5 = Err e ->
    main w start =
    ({| calls := calls st1 ++ [search_call (upper line) 5];
        stdout := [ prompt; nl ++ "Analysis for " ++ upper line ++ ":"; label;
                    "Error: " ++ exn_str e ] |}, Ok tt).
Proof.
  intros w line st1 label e H1 H2 H3 Hp Hs.
  rewrite (main_started w H1 H2 H3), pipeline_run, Hp, Hs.
  pose proof (predict_trend_stdout w (upper line) (printed start [prompt])) as Hout.
  rewrite Hp in Hout. cbn [fst] in Hout.
  unfold printed, after, analysis_lines. cbn [calls stdout]. rewrite Hout.
  reflexivity.
Qed.

(** X12: a run without failure.  The sample comes from a second search of
    its own, with limit 5, and not from the posts that were aggregated; the
    output is the prompt, the header, the label, the sample header and, per
    post of that second search, its title and the two-decimal score of its
    body.  A second search without hits is no error: the output then ends
    with the sample header. *)
Theorem main_success :
  forall w line st1 label hits,
    praw_Reddit w = Ok tt -> vader_load w = Ok tt -> stdin_line w = Ok line ->
    predict_trend w (upper line) (printed start [prompt]) = (st1, Ok label) ->
    reddit_search w (calls st1) subreddits (upper line ++ " stock") 5 = Ok hits ->
    main w start =
    ({| calls := calls st1 ++ search_call (upper line) 5 :: body_calls hits;
        stdout := [ prompt; nl ++ "Analysis for " ++ upper line ++ ":"; label;
                    sample_header ] ++ flat_map (sample_lines w) hits |}, Ok tt).
Proof.
  intros w line st1 label hits H1 H2 H3 Hp Hs.
  rewrite (main_started w H1 H2 H3), pipeline_run, Hp, Hs.
  pose proof (predict_trend_stdout w (upper line) (printed start [prompt])) as Hout.
  rewrite Hp in Hout. cbn [fst] in Hout.
  unfold analysis_lines. rewrite Hout. reflexivity.
Qed.

Lemma main_sample_fetch_failure_witness :
  stdout (fst (main (flaky_world Sample.one Sample.line) start)) =
  [ prompt; nl ++ "Analysis for AAPL:"; bearish;
    "Error: received 429 HTTP response" ].
Proof.
  erewrite (@main_sample_fetch_failure (flaky_world Sample.one Sample.line)
              Sample.line _ bearish
              (Raised "TooManyRequests" "received 429 HTTP response")
              eq_refl eq_refl eq_refl).
  - reflexivity.
  - vm_compute. reflexivity.
  - reflexivity.
Defined.

Lemma main_success_witness :
  stdout (fst (main (Sample.world Sample.two Sample.line) start)) =
  [ prompt; nl ++ "Analysis for AAPL:"; bullish; sample_header;
    nl ++ "Title: Earnings"; "Sentiment: 0.44";
    nl ++ "Title: Rally"; "Sentiment: 0.62" ].
Proof.
  erewrite (@main_success (Sample.world Sample.two Sample.line)
              Sample.line _ bullish Sample.two eq_refl eq_refl eq_refl).
  - reflexivity.
  - vm_compute. reflexivity.
  - reflexivity.
Defined.

(** *** The frame of posts *)

(** X13: when the dicts of all hits can be built, the frame
    [get_reddit_posts] returns has one row per hit of the search, in the
    order of the hits, with the title, body, score and converted creation
    time of that hit; nothing is filtered, sorted or merged.  With at least
    one hit the ['title'] and ['text'] columns hold the titles and bodies;
    with no hit the frame has no column, so every column lookup raises
    [KeyError] while iterating over its rows does nothing. *)
Theorem get_reddit_posts_frame :
  forall w stock_symbol limit st hits posts,
    reddit_search w (calls st) subreddits (stock_symbol ++ " stock") limit = Ok hits ->
    collect_posts hits = Ok posts ->
    exists df,
      snd (get_reddit_posts w stock_symbol limit st) = Ok df /\
      Pandas.nrows df = List.length hits /\
      Pandas.iterrows df = map row_of posts /\
      map Pandas.p_title posts = map title hits /\
      map Pandas.p_text posts = map selftext hits /\
      map Pandas.p_score posts = map score hits /\
      map (fun r => Ok (Pandas.p_created_utc r)) posts =
        map (fun p => fromtimestamp (seconds (created_utc p))) hits /\
      (hits <> [] ->
       Pandas.getitem df "title" = Ok (Pandas.ColStr (map title hits)) /\
       Pandas.getitem df "text" = Ok (Pandas.ColStr (map selftext hits))) /\
      (hits = [] -> forall k, Pandas.getitem df k = Err (KeyError k)).
Proof.
  intros w s limit st hits posts H Hc. rewrite get_reddit_posts_run, H.
  rewrite collect_posts_ok in Hc. injection Hc as <-.
  exists (frame_of hits). split; [reflexivity|]. unfold frame_of.
  rewrite iterrows_from_records, !map_map. cbn [post_row Pandas.p_title
    Pandas.p_text Pandas.p_score Pandas.p_created_utc].
  repeat split.
  - destruct hits; cbn; [reflexivity | now rewrite length_map].
  - apply map_ext. intros p. now rewrite fromtimestamp_instant.
  - destruct hits as [|p hits]; [congruence|]. cbn. now rewrite !map_map.
  - destruct hits as [|p hits]; [congruence|]. cbn. now rewrite !map_map.
  - intros ->. reflexivity.
Qed.

Lemma get_reddit_posts_frame_witness :
  exists df,
    snd (get_reddit_posts (Sample.world Sample.two Sample.line) "AAPL" 5 start) = Ok df /\
    Pandas.nrows df = 2 /\
    Pandas.getitem df "title" = Ok (Pandas.ColStr ["Earnings"; "Rally"]).
Proof.
  destruct (@get_reddit_posts_frame (Sample.world Sample.two Sample.line)
              "AAPL" 5 start Sample.two _ eq_refl eq_refl)
    as (df & H1 & H2 & _ & _ & _ & _ & _ & H3 & _).
  exists df. repeat split; [exact H1 | exact H2 |].
  apply H3. discriminate.
Defined.

(** *** The symbol that is looked up *)

Lemma upper_ascii_idem (c : ascii) : upper_ascii (upper_ascii c) = upper_ascii c.
Proof.
  destruct c as [[|] [|] [|] [|] [|] [|] [|] [|]]; reflexivity.
Qed.

Lemma upper_idem (s : string) : upper (upper s) = upper s.
Proof.
  induction s as [|c s IH]; [reflexivity|].
  cbn [upper]. now rewrite upper_ascii_idem, IH.
Qed.

(** X14: the letter case of the typed symbol does not matter (for ASCII
    letters): typing a symbol or its upper-case form gives the same run,
    with the same requests and the same output. *)
Theorem main_ignores_letter_case :
  forall w line,
    main (with_stdin w (Ok (upper line))) start =
    main (with_stdin w (Ok line)) start.
Proof.
  intros w line. unfold main, init, input, bind, lift, print.
  cbn [praw_Reddit vader_load stdin_line with_stdin].
  destruct (praw_Reddit w) as [[]|e1|x1]; try reflexivity.
  destruct (vader_load w) as [[]|e2|x2]; try reflexivity.
  rewrite upper_idem. reflexivity.
Qed.

(** *** How many requests a run makes *)

Section Budget.

Lemma count_calls_app p (a b : list call) :
  count_calls p (a ++ b) = count_calls p a + count_calls p b.
Proof. unfold count_calls. now rewrite filter_app, length_app. Qed.

Lemma body_calls_no_request (hits : list Submission) :
  count_calls is_search (body_calls hits) = 0 /\
  count_calls is_history (body_calls hits) = 0.
Proof. induction hits as [|p hits IH]; [now split | exact IH]. Qed.

Variable w : World.

Lemma predict_trend_requests stock_symbol st :
  exists added,
    calls (fst (predict_trend w stock_symbol st)) = (calls st ++ added)%list /\
    count_calls is_search added = 1 /\
    count_calls is_history added <= 1.
Proof.
  rewrite predict_trend_run, mean_sentiment_run.
  destruct (reddit_search w (calls st) subreddits _ 100) as [[|p hits]|e|x].
  - exists [search_call stock_symbol 100]. repeat split. cbn. lia.
  - destruct (body_calls_no_request (p :: hits)) as [Hs Hh].
    exists (search_call stock_symbol 100 :: body_calls (p :: hits)
            ++ [history_call w (after st (search_call stock_symbol 100
                                          :: body_calls (p :: hits)))
                             stock_symbol 30]).
    split; [|split].
    + cbn [fst]. rewrite after_after. reflexivity.
    + change (search_call stock_symbol 100 :: ?l) with ([search_call stock_symbol 100] ++ l)%list.
      rewrite !count_calls_app, Hs. reflexivity.
    + change (search_call stock_symbol 100 :: ?l) with ([search_call stock_symbol 100] ++ l)%list.
      rewrite !count_calls_app, Hh. cbn. lia.
  - exists [search_call stock_symbol 100]. repeat split. cbn. lia.
  - exists [search_call stock_symbol 100]. repeat split. cbn. lia.
Qed.

End Budget.

(** X15: nothing is ever retried.  From the moment the symbol is read, a
    run sends at most two searches and at most one price request, whatever
    the collaborators answer. *)
Theorem report_request_budget :
  forall w stock_symbol st,
    exists added,
      calls (fst (report w stock_symbol st)) = (calls st ++ added)%list /\
      count_calls is_search added <= 2 /\
      count_calls is_history added <= 1.
Proof.
  intros w s st. rewrite report_run, pipeline_run.
  destruct (predict_trend_requests w s st) as (added & Hc & Hs & Hh).
  destruct (predict_trend w s st) as [st1 [label|e|x]]; cbn [fst] in Hc.
  - destruct (reddit_search w (calls st1) subreddits _ 5) as [hits|e|x].
    + destruct (body_calls_no_request hits) as [Bs Bh].
      exists (added ++ search_call s 5 :: body_calls hits)%list.
      cbn [fst calls]. rewrite Hc, <- app_assoc. split; [reflexivity|].
      change (search_call s 5 :: body_calls hits)
        with ([search_call s 5] ++ body_calls hits)%list.
      rewrite !count_calls_app, Hs, Bs, Bh. cbn. lia.
    + exists (added ++ [search_call s 5])%list.
      cbn [fst calls printed after]. rewrite Hc, <- app_assoc.
      split; [reflexivity|]. rewrite !count_calls_app, Hs. cbn. lia.
    + exists (added ++ [search_call s 5])%list.
      cbn [fst calls printed after]. rewrite Hc, <- app_assoc.
      split; [reflexivity|]. rewrite !count_calls_app, Hs. cbn. lia.
  - exists added. cbn [fst calls printed]. rewrite Hc. split; [reflexivity|]. lia.
  - exists added. cbn [fst calls]. rewrite Hc. split; [reflexivity|]. lia.
Qed.
